(** * FAQ service (app.py): a shallow embedding and its checked properties

    The service is a Flask application with three GET routes
    ([/health], [/api/faq], [/api/faq/<string:faq_key>]) and three error
    handlers (404, 500, 405).  Every request re-reads [faq.json].

    The embedding follows app.py function by function.  What app.py takes
    from its runtime is made explicit:
    - the file system and [json.load] are a [world]: whether the path
      exists, and what opening and parsing the file yields;
    - [abort] raises an exception, and [try/except Exception] catches every
      exception, the ones raised by [abort] included;
    - Flask's request dispatch (URL matching, automatic HEAD and OPTIONS,
      error handlers looked up by status code) is [wsgi_app] below.
    Responses are the response objects the application returns (status and
    JSON payload); headers and wire encoding are not modelled, except that
    [received] drops the body of the answer to a HEAD request, which is
    never sent.  The URL map holds the three rules app.py declares, matched
    against the decoded path; the static-file rule Flask adds by itself and
    the redirects werkzeug sends for a path with doubled slashes are left
    out, and the properties that range over all paths are stated for the
    paths [plain_path] accepts, where neither applies. *)

From Stdlib Require Import ZArith String Ascii List Bool.
From stdpp Require Import base option gmap strings pretty.
Import ListNotations.

Local Open Scope Z_scope.
Local Open Scope string_scope.

(** ** JSON values, as [json.load] builds them and [jsonify] serialises them *)

#[warnings="-register-all"]
Inductive json : Type :=
| JNull
| JBool (b : bool)
| JInt (n : Z)
| JFloat (literal : string)
| JString (s : string)
| JArray (items : list json)
| JObject (fields : gmap string json).

(** ** Exceptions

    [HTTPException] is what [abort(code, description=...)] and the URL
    matcher raise; like every other constructor here it is a subclass of
    Python's [Exception]. *)

Record http_error : Type := { code : Z; description : string }.

Inductive exn : Type :=
| HTTPException (error : http_error)
| JSONDecodeError (msg : string)
| TypeError (msg : string)
| KeyError (key : string)
| OtherException (msg : string).

(** ** The monad of view code: a log (the records app.py writes with
    [app.logger.error]) and exceptions *)

Inductive result (A : Type) : Type :=
| Return (a : A)
| Raise (e : exn).
Arguments Return {A} a.
Arguments Raise {A} e.

Definition M (A : Type) : Type := list string -> result A * list string.

Definition ret {A} (a : A) : M A := fun l => (Return a, l).

Definition bind {A B} (c : M A) (k : A -> M B) : M B :=
  fun l => match c l with
           | (Return a, l') => k a l'
           | (Raise e, l') => (Raise e, l')
           end.

Definition raise {A} (e : exn) : M A := fun l => (Raise e, l).

(** [try: c  except Exception as e: handler e] *)
Definition try_except {A} (c : M A) (handler : exn -> M A) : M A :=
  fun l => match c l with
           | (Return a, l') => (Return a, l')
           | (Raise e, l') => handler e l'
           end.

Definition logger_error (record : string) : M unit :=
  fun l => (Return tt, (l ++ [record])%list).

Definition abort {A} (status_code : Z) (descr : string) : M A :=
  raise (HTTPException {| code := status_code; description := descr |}).

Declare Scope view_scope.
Delimit Scope view_scope with view.
Notation "x <- c ;; k" := (bind c (fun x => k))
  (at level 100, c at next level, right associativity) : view_scope.
Notation "c ;;; k" := (bind c (fun _ => k))
  (at level 100, right associativity) : view_scope.
Local Open Scope view_scope.

(** ** Python operators used by the views *)

(** [a or b] on strings: the empty string is falsy. *)
Definition py_or (a b : string) : string :=
  match a with
  | EmptyString => b
  | _ => a
  end.

Fixpoint is_substring (needle hay : string) : bool :=
  String.prefix needle hay ||
  match hay with
  | EmptyString => false
  | String _ rest => is_substring needle rest
  end.

Definition equals_str (key : string) (x : json) : bool :=
  match x with
  | JString s => String.eqb s key
  | _ => false
  end.

(** [key in container], for a [str] key: membership among the keys of a
    dict, among the elements of a list, as a substring of a str; a
    [TypeError] for the values that are not containers. *)
Definition contains (container : json) (key : string) : M bool :=
  match container with
  | JObject d => ret (bool_decide (is_Some (d !! key)))
  | JArray items => ret (existsb (equals_str key) items)
  | JString s => ret (is_substring key s)
  | JNull => raise (TypeError "argument of type 'NoneType' is not iterable")
  | JBool _ => raise (TypeError "argument of type 'bool' is not iterable")
  | JInt _ => raise (TypeError "argument of type 'int' is not iterable")
  | JFloat _ => raise (TypeError "argument of type 'float' is not iterable")
  end.

(** [container[key]], for a [str] key. *)
Definition getitem (container : json) (key : string) : M json :=
  match container with
  | JObject d =>
      match d !! key with
      | Some v => ret v
      | None => raise (KeyError key)
      end
  | JArray _ => raise (TypeError "list indices must be integers or slices, not str")
  | JString _ => raise (TypeError "string indices must be integers, not 'str'")
  | JNull => raise (TypeError "'NoneType' object is not subscriptable")
  | JBool _ => raise (TypeError "'bool' object is not subscriptable")
  | JInt _ => raise (TypeError "'int' object is not subscriptable")
  | JFloat _ => raise (TypeError "'float' object is not subscriptable")
  end.

(** [str(e)], as the f-strings of the log records format an exception. *)
Definition status_name (c : Z) : string :=
  if Z.eqb c 404 then "Not Found"
  else if Z.eqb c 405 then "Method Not Allowed"
  else if Z.eqb c 500 then "Internal Server Error"
  else "Unknown Error".

Definition str (e : exn) : string :=
  match e with
  | HTTPException err =>
      pretty (code err) +:+ " " +:+ status_name (code err) +:+ ": " +:+ description err
  | JSONDecodeError msg => msg
  | TypeError msg => msg
  | KeyError key => "'" +:+ key +:+ "'"
  | OtherException msg => msg
  end.

(** ** The world outside the process *)

(** What [open(FAQ_FILE, 'r', encoding='utf-8')] followed by [json.load]
    does: returns the parsed value, raises [json.JSONDecodeError], or raises
    anything else (an [OSError], a [UnicodeDecodeError], ...). *)
Inductive load_outcome : Type :=
| Parsed (data : json)
| DecodeFails (msg : string)
| ReadFails (msg : string).

Record world : Type := {
  path_exists : bool;          (* os.path.exists(FAQ_FILE) *)
  json_load : load_outcome;    (* open + json.load, when attempted *)
  debug : bool                 (* app.debug: unhandled exceptions propagate *)
}.

Definition FAQ_FILE : string := "faq.json".

(** ** Responses *)

Inductive body : Type :=
| JsonBody (v : json)      (* a body built by [jsonify] *)
| HtmlBody (text : string) (* the page werkzeug renders for an exception *)
| EmptyBody.

Record response : Type := { payload : body; status : Z }.

Definition jsonify (v : json) : body := JsonBody v.

(** ** Helper function of app.py *)

Definition load_faq_data (w : world) : M json :=
  (if negb (path_exists w) then
     logger_error ("Critical Error: The data file '" +:+ FAQ_FILE +:+ "' was not found.") ;;;
     abort 500 ("Server configuration error: Data file '" +:+ FAQ_FILE +:+ "' is missing.")
   else ret tt) ;;;
  try_except
    (match json_load w with
     | Parsed data => ret data
     | DecodeFails msg => raise (JSONDecodeError msg)
     | ReadFails msg => raise (OtherException msg)
     end)
    (fun e =>
       match e with
       | JSONDecodeError _ =>
           logger_error ("JSON Decode Error in '" +:+ FAQ_FILE +:+ "': " +:+ str e) ;;;
           abort 500 ("Error decoding data from '" +:+ FAQ_FILE +:+ "'. Please check its format.")
       | _ =>
           logger_error ("An unexpected error occurred while loading '" +:+ FAQ_FILE +:+ "': " +:+ str e) ;;;
           abort 500 "An unexpected error occurred while trying to load data."
       end).

(** ** API endpoints of app.py *)

Definition health_check (w : world) : M response :=
  try_except
    (load_faq_data w ;;;
     ret {| payload := jsonify (JObject {[ "status" := JString "ok";
                                           "message" := JString "API is healthy and data file is accessible." ]});
            status := 200 |})
    (fun e =>
       logger_error ("Health check failed: " +:+ str e) ;;;
       ret {| payload := jsonify (JObject {[ "status" := JString "error";
                                             "message" := JString "API is unhealthy or data source is unavailable." ]});
              status := 503 |}).

Definition get_all_faq (w : world) : M response :=
  faq_data <- load_faq_data w ;;
  ret {| payload := jsonify faq_data; status := 200 |}.

Definition get_specific_faq (w : world) (faq_key : string) : M response :=
  faq_data <- load_faq_data w ;;
  found <- contains faq_data faq_key ;;
  if (found : bool) then
    item <- getitem faq_data faq_key ;;
    ret {| payload := jsonify item; status := 200 |}
  else
    ret {| payload := jsonify (JObject {[ "error" := JString "FAQ item not found";
                                          "requested_key" := JString faq_key ]});
           status := 404 |}.

(** ** Error handlers of app.py *)

Definition not_found_error (error : http_error) : M response :=
  ret {| payload := jsonify (JObject {[ "error_code" := JString "NOT_FOUND";
           "message" := JString (py_or (description error)
                          "The requested resource was not found on this server.") ]});
         status := 404 |}.

Definition internal_error (error : http_error) : M response :=
  ret {| payload := jsonify (JObject {[ "error_code" := JString "INTERNAL_SERVER_ERROR";
           "message" := JString (py_or (description error)
                          "An unexpected error occurred on the server. Please try again later.") ]});
         status := 500 |}.

Definition method_not_allowed_error (error : http_error) : M response :=
  ret {| payload := jsonify (JObject {[ "error_code" := JString "METHOD_NOT_ALLOWED";
           "message" := JString (py_or (description error)
                          "The method is not allowed for the requested URL.") ]});
         status := 405 |}.

(** ** Flask: the URL map built by the [@app.route] decorators *)

Inductive http_method : Type :=
| GET | HEAD | POST | PUT | DELETE | CONNECT | OPTIONS | TRACE | PATCH.

#[global] Instance http_method_eq_dec : EqDecision http_method.
Proof. solve_decision. Defined.

Record request : Type := { method : http_method; path : string }.

(** [request.method], as text. *)
Definition method_name (m : http_method) : string :=
  match m with
  | GET => "GET" | HEAD => "HEAD" | POST => "POST" | PUT => "PUT"
  | DELETE => "DELETE" | CONNECT => "CONNECT" | OPTIONS => "OPTIONS"
  | TRACE => "TRACE" | PATCH => "PATCH"
  end.

(** One endpoint per decorated view; the third carries the value its
    [<string:faq_key>] converter extracted from the path. *)
Inductive endpoint : Type :=
| ep_health_check
| ep_get_all_faq
| ep_get_specific_faq (faq_key : string).

Fixpoint has_slash (s : string) : bool :=
  match s with
  | EmptyString => false
  | String c rest => Ascii.eqb c "/" || has_slash rest
  end.

(** The [string] converter: any non-empty text without a slash. *)
Definition string_converter (segment : string) : bool :=
  negb (String.eqb segment "") && negb (has_slash segment).

Fixpoint strip_prefix (p s : string) : option string :=
  match p, s with
  | EmptyString, _ => Some s
  | String a p', String b s' => if Ascii.eqb a b then strip_prefix p' s' else None
  | String _ _, EmptyString => None
  end.

Definition url_map (path : string) : option endpoint :=
  if String.eqb path "/health" then Some ep_health_check
  else if String.eqb path "/api/faq" then Some ep_get_all_faq
  else match strip_prefix "/api/faq/" path with
       | Some segment =>
           if string_converter segment then Some (ep_get_specific_faq segment) else None
       | None => None
       end.

(** The methods a rule answers: those of [methods=[...]], HEAD when GET is
    among them, and OPTIONS, which Flask answers itself. *)
Definition rule_methods (declared : list http_method) : list http_method :=
  declared ++ (if bool_decide (GET ∈ declared) then [HEAD] else []) ++ [OPTIONS].

Definition view_function (w : world) (ep : endpoint) : M response :=
  match ep with
  | ep_health_check => health_check w
  | ep_get_all_faq => get_all_faq w
  | ep_get_specific_faq faq_key => get_specific_faq w faq_key
  end.

(** The handlers registered with [@app.errorhandler(code)]. *)
Definition error_handler_spec (c : Z) : option (http_error -> M response) :=
  if Z.eqb c 404 then Some not_found_error
  else if Z.eqb c 500 then Some internal_error
  else if Z.eqb c 405 then Some method_not_allowed_error
  else None.

Section Dispatch.

(** The description werkzeug gives, by default, to the exception of a
    status code ([NotFound], [MethodNotAllowed], [InternalServerError]). *)
Variable default_description : Z -> string.

Definition default_exception (c : Z) : exn :=
  HTTPException {| code := c; description := default_description c |}.

(** URL matching, then the view of the matched rule. *)
Definition dispatch_request (w : world) (req : request) : M response :=
  match url_map (path req) with
  | None => raise (default_exception 404)
  | Some ep =>
      if bool_decide (method req ∈ rule_methods [GET]) then
        match method req with
        | OPTIONS => ret {| payload := EmptyBody; status := 200 |}
        | _ => view_function w ep
        end
      else raise (default_exception 405)
  end.

Definition handle_http_exception (error : http_error) : M response :=
  match error_handler_spec (code error) with
  | Some handler => handler error
  | None => ret {| payload := HtmlBody (description error); status := code error |}
  end.

(** An [HTTPException] goes to the handler of its code; any other
    exception is raised again. *)
Definition handle_user_exception (e : exn) : M response :=
  match e with
  | HTTPException error => handle_http_exception error
  | _ => raise e
  end.

Definition full_dispatch_request (w : world) (req : request) : M response :=
  try_except (dispatch_request w req) handle_user_exception.

(** An exception no handler took: propagated when debugging; else Flask
    logs it on [app.logger] ([log_exception]) and answers as an
    [InternalServerError] through the 500 handler. *)
Definition handle_exception (w : world) (req : request) (e : exn) : M response :=
  if debug w then raise e
  else
    (logger_error ("Exception on " +:+ path req +:+ " [" +:+ method_name (method req) +:+ "]") ;;;
     handle_http_exception {| code := 500; description := default_description 500 |}).

Definition wsgi_app (w : world) (req : request) : M response :=
  try_except (full_dispatch_request w req) (handle_exception w req).

(** What a client observes, and what the log holds afterwards, for one
    request served from an empty log. *)
Definition respond (w : world) (req : request) : result response :=
  fst (wsgi_app w req []).

Definition logged (w : world) (req : request) : list string :=
  snd (wsgi_app w req []).

(** What reaches the client: the answer to a HEAD request is sent without
    its body. *)
Definition received (w : world) (req : request) : result response :=
  match respond w req with
  | Return r =>
      Return {| payload := match method req with
                           | HEAD => EmptyBody
                           | _ => payload r
                           end;
                status := status r |}
  | Raise e => Raise e
  end.

End Dispatch.

(** werkzeug's own texts, for concrete runs. *)
Definition werkzeug_description (c : Z) : string :=
  if Z.eqb c 404 then
    "The requested URL was not found on the server. If you entered the URL manually please check your spelling and try again."
  else if Z.eqb c 405 then "The method is not allowed for the requested URL."
  else if Z.eqb c 500 then
    "The server encountered an internal error and was unable to complete your request. Either the server is overloaded or there is an error in the application."
  else "".

(** ** Vocabulary of the specification *)

(** The error envelope [{"error_code": CODE, "message": string}]. *)
Definition error_envelope (code_name message : string) : json :=
  JObject {[ "error_code" := JString code_name; "message" := JString message ]}.

Definition has_envelope_shape (b : body) : Prop :=
  exists code_name message, b = JsonBody (error_envelope code_name message).

(** The body of the get-one endpoint for a key it does not find. *)
Definition faq_not_found (k : string) : json :=
  JObject {[ "error" := JString "FAQ item not found"; "requested_key" := JString k ]}.

(** The three kinds of loader failure. *)
Inductive failure_kind : Type :=
| MissingDataFile
| MalformedData
| UnexpectedLoadFailure.

Definition loader_failure (w : world) : option failure_kind :=
  if path_exists w then
    match json_load w with
    | Parsed _ => None
    | DecodeFails _ => Some MalformedData
    | ReadFails _ => Some UnexpectedLoadFailure
    end
  else Some MissingDataFile.

(** [k] is in none of the ways Python's [in] finds it in [doc]. *)
Definition absent_from (k : string) (doc : json) : Prop :=
  match doc with
  | JObject d => d !! k = None
  | JArray items => existsb (equals_str k) items = false
  | JString s => is_substring k s = false
  | _ => False
  end.

Definition GET_ (p : string) : request := {| method := GET; path := p |}.

(** The paths on which the three rules of app.py are all there is to
    match: they start with a slash, hold no doubled slash (werkzeug answers
    those with a redirect to the merged path) and are not under [/static/]
    (the rule Flask registers for static files). *)
Fixpoint has_doubled_slash (s : string) : bool :=
  match s with
  | EmptyString => false
  | String c rest =>
      (Ascii.eqb c "/" &&
       match rest with
       | String d _ => Ascii.eqb d "/"
       | EmptyString => false
       end)
      || has_doubled_slash rest
  end.

Definition plain_path (p : string) : bool :=
  String.prefix "/" p && negb (has_doubled_slash p) && negb (String.prefix "/static/" p).

(** What the loader tells the client, and what it logs, for each kind. *)
Definition failure_description (f : failure_kind) : string :=
  match f with
  | MissingDataFile => "Server configuration error: Data file 'faq.json' is missing."
  | MalformedData => "Error decoding data from 'faq.json'. Please check its format."
  | UnexpectedLoadFailure => "An unexpected error occurred while trying to load data."
  end.

Definition failure_detail (w : world) : string :=
  match json_load w with
  | Parsed _ => ""
  | DecodeFails msg => msg
  | ReadFails msg => msg
  end.

Definition failure_record (f : failure_kind) (detail : string) : string :=
  match f with
  | MissingDataFile => "Critical Error: The data file 'faq.json' was not found."
  | MalformedData => "JSON Decode Error in 'faq.json': " +:+ detail
  | UnexpectedLoadFailure =>
      "An unexpected error occurred while loading 'faq.json': " +:+ detail
  end.

(** The requests of the two FAQ endpoints. *)
Inductive faq_request : request -> Prop :=
| faq_request_all : faq_request (GET_ "/api/faq")
| faq_request_one k :
    string_converter k = true -> faq_request (GET_ ("/api/faq/" +:+ k)).

(** The value of a field of a JSON object. *)
Definition field (v : json) (k : string) : option json :=
  match v with
  | JObject d => d !! k
  | _ => None
  end.

Definition body_field (r : result response) (k : string) : option json :=
  match r with
  | Return {| payload := JsonBody v |} => field v k
  | _ => None
  end.

(** Concrete worlds for the examples. *)

(** The file of the specification's example. *)
Definition world_example : world :=
  {| path_exists := true;
     json_load := Parsed (JObject {[ "price_cut" := JString "We reduced prices in March." ]});
     debug := true |}.

(** A file whose only key holds a slash: [{"a/b": 1}]. *)
Definition world_slash_key : world :=
  {| path_exists := true;
     json_load := Parsed (JObject {[ "a/b" := JInt 1 ]});
     debug := true |}.

(** Files that are valid JSON without being objects: [5] and [["x"]]. *)
Definition world_number (dbg : bool) : world :=
  {| path_exists := true; json_load := Parsed (JInt 5); debug := dbg |}.

Definition world_array : world :=
  {| path_exists := true; json_load := Parsed (JArray [JString "x"]); debug := true |}.

(** No file; and a file that is not JSON. *)
Definition world_missing : world :=
  {| path_exists := false; json_load := ReadFails "No such file or directory"; debug := true |}.

Definition world_malformed : world :=
  {| path_exists := true;
     json_load := DecodeFails "Expecting value: line 1 column 1 (char 0)";
     debug := true |}.


(** * Properties *)

(** ** The loader *)

Lemma load_faq_data_ok w v l :
  path_exists w = true -> json_load w = Parsed v ->
  load_faq_data w l = (Return v, l).
Proof.
  intros Hex Hload. unfold load_faq_data, bind, try_except.
  rewrite Hex, Hload. reflexivity.
Qed.

Lemma load_faq_data_fails w f l :
  loader_failure w = Some f ->
  load_faq_data w l =
    (Raise (HTTPException {| code := 500; description := failure_description f |}),
     (l ++ [failure_record f (failure_detail w)])%list).
Proof.
  unfold loader_failure, load_faq_data, failure_detail, bind, try_except.
  destruct (path_exists w); [destruct (json_load w) |]; intros [= <-]; reflexivity.
Qed.

(** The loader returns or raises; when it returns, it has logged nothing,
    and when it raises, it raises what [abort(500, ...)] raises. *)
Lemma load_faq_data_cases w l :
  (exists v, path_exists w = true /\ json_load w = Parsed v /\
             load_faq_data w l = (Return v, l)) \/
  (exists f, loader_failure w = Some f).
Proof.
  unfold loader_failure.
  destruct (path_exists w) eqn:Hex; [| right; eauto].
  destruct (json_load w) eqn:Hload; [left | right; eauto | right; eauto].
  exists data. split; [reflexivity | split; [reflexivity |]].
  now apply load_faq_data_ok.
Qed.

Lemma load_faq_data_Return w v l l' :
  load_faq_data w l = (Return v, l') ->
  path_exists w = true /\ json_load w = Parsed v /\ l' = l.
Proof.
  intros H. destruct (load_faq_data_cases w l) as [(v' & Hex & Hload & Hrun) | (f & Hf)].
  - rewrite Hrun in H. injection H as -> ->. auto.
  - rewrite (load_faq_data_fails _ _ _ Hf) in H. discriminate.
Qed.

Lemma failure_description_truthy f fallback :
  py_or (failure_description f) fallback = failure_description f.
Proof. destruct f; reflexivity. Qed.

(** ** The views *)

Lemma get_all_faq_ok w v l :
  path_exists w = true -> json_load w = Parsed v ->
  get_all_faq w l = (Return {| payload := jsonify v; status := 200 |}, l).
Proof.
  intros Hex Hload. unfold get_all_faq, bind.
  rewrite (load_faq_data_ok _ _ _ Hex Hload). reflexivity.
Qed.

Lemma get_all_faq_fails w f l :
  loader_failure w = Some f ->
  get_all_faq w l =
    (Raise (HTTPException {| code := 500; description := failure_description f |}),
     (l ++ [failure_record f (failure_detail w)])%list).
Proof.
  intros Hf. unfold get_all_faq, bind. rewrite (load_faq_data_fails _ _ _ Hf). reflexivity.
Qed.

Lemma get_specific_faq_fails w k f l :
  loader_failure w = Some f ->
  get_specific_faq w k l =
    (Raise (HTTPException {| code := 500; description := failure_description f |}),
     (l ++ [failure_record f (failure_detail w)])%list).
Proof.
  intros Hf. unfold get_specific_faq, bind. rewrite (load_faq_data_fails _ _ _ Hf). reflexivity.
Qed.

Lemma get_specific_faq_found w d k v l :
  path_exists w = true -> json_load w = Parsed (JObject d) -> d !! k = Some v ->
  get_specific_faq w k l = (Return {| payload := jsonify v; status := 200 |}, l).
Proof.
  intros Hex Hload Hk. unfold get_specific_faq, bind.
  rewrite (load_faq_data_ok _ _ _ Hex Hload). unfold contains, getitem, ret.
  rewrite Hk. rewrite bool_decide_eq_true_2 by eauto. reflexivity.
Qed.

Lemma get_specific_faq_absent w doc k l :
  path_exists w = true -> json_load w = Parsed doc -> absent_from k doc ->
  get_specific_faq w k l =
    (Return {| payload := jsonify (faq_not_found k); status := 404 |}, l).
Proof.
  intros Hex Hload Habs. unfold get_specific_faq, bind.
  rewrite (load_faq_data_ok _ _ _ Hex Hload).
  destruct doc; simpl in Habs; try contradiction; unfold contains, ret.
  - rewrite Habs. reflexivity.
  - rewrite Habs. reflexivity.
  - rewrite Habs. rewrite bool_decide_eq_false_2; [reflexivity |].
    intros [x Hx]. discriminate.
Qed.

Lemma health_check_ok w v l :
  path_exists w = true -> json_load w = Parsed v ->
  health_check w l =
    (Return {| payload := jsonify (JObject {[ "status" := JString "ok";
                 "message" := JString "API is healthy and data file is accessible." ]});
               status := 200 |}, l).
Proof.
  intros Hex Hload. unfold health_check, try_except, bind.
  rewrite (load_faq_data_ok _ _ _ Hex Hload). reflexivity.
Qed.

(** The [except Exception] of [health_check] catches the exception the
    loader's [abort] raises, so the view itself answers. *)
Lemma health_check_fails w f l :
  loader_failure w = Some f ->
  fst (health_check w l) =
    Return {| payload := jsonify (JObject {[ "status" := JString "error";
                "message" := JString "API is unhealthy or data source is unavailable." ]});
              status := 503 |}.
Proof.
  intros Hf. unfold health_check, try_except, bind.
  rewrite (load_faq_data_fails _ _ _ Hf). reflexivity.
Qed.

(** ** Dispatch *)

(** A path under [/api/faq/] is neither of the two fixed paths, and what
    follows the prefix is what the converter is given. *)
Lemma url_map_under_faq k :
  url_map ("/api/faq/" +:+ k) =
    if string_converter k then Some (ep_get_specific_faq k) else None.
Proof.
  unfold url_map.
  assert (String.eqb ("/api/faq/" +:+ k) "/health" = false) as -> by reflexivity.
  assert (String.eqb ("/api/faq/" +:+ k) "/api/faq" = false) as -> by reflexivity.
  assert (strip_prefix "/api/faq/" ("/api/faq/" +:+ k) = Some k) as -> by reflexivity.
  reflexivity.
Qed.

Lemma url_map_key k :
  string_converter k = true ->
  url_map ("/api/faq/" +:+ k) = Some (ep_get_specific_faq k).
Proof. intros Hk. rewrite url_map_under_faq, Hk. reflexivity. Qed.

Lemma url_map_bad_key k :
  string_converter k = false -> url_map ("/api/faq/" +:+ k) = None.
Proof. intros Hk. rewrite url_map_under_faq, Hk. reflexivity. Qed.

Section DispatchFacts.

Variable dd : Z -> string.

Lemma dispatch_GET w p ep :
  url_map p = Some ep -> dispatch_request dd w (GET_ p) = view_function w ep.
Proof. intros Hp. unfold dispatch_request. simpl. rewrite Hp. reflexivity. Qed.

(** A view that returns: its response is the response of the request. *)
Lemma wsgi_app_Return w p ep r l l' :
  url_map p = Some ep -> view_function w ep l = (Return r, l') ->
  wsgi_app dd w (GET_ p) l = (Return r, l').
Proof.
  intros Hp Hview. unfold wsgi_app, full_dispatch_request, try_except.
  rewrite (dispatch_GET _ _ _ Hp), Hview. reflexivity.
Qed.

(** A view left by [abort(500, description=d)]: the 500 handler answers. *)
Lemma wsgi_app_abort_500 w p ep d l l' :
  url_map p = Some ep ->
  view_function w ep l =
    (Raise (HTTPException {| code := 500; description := d |}), l') ->
  wsgi_app dd w (GET_ p) l =
    (Return {| payload := jsonify (error_envelope "INTERNAL_SERVER_ERROR"
                 (py_or d "An unexpected error occurred on the server. Please try again later."));
               status := 500 |}, l').
Proof.
  intros Hp Hview. unfold wsgi_app, full_dispatch_request, try_except.
  rewrite (dispatch_GET _ _ _ Hp), Hview. reflexivity.
Qed.

Lemma faq_request_fails w f req :
  loader_failure w = Some f -> faq_request req ->
  wsgi_app dd w req [] =
    (Return {| payload := jsonify (error_envelope "INTERNAL_SERVER_ERROR"
                                     (failure_description f));
               status := 500 |},
     [failure_record f (failure_detail w)]).
Proof.
  intros Hf Hreq. destruct Hreq as [| k Hk].
  - rewrite (wsgi_app_abort_500 w "/api/faq" ep_get_all_faq
               (failure_description f) [] [failure_record f (failure_detail w)]).
    + rewrite failure_description_truthy. reflexivity.
    + reflexivity.
    + exact (get_all_faq_fails w f [] Hf).
  - rewrite (wsgi_app_abort_500 w ("/api/faq/" +:+ k) (ep_get_specific_faq k)
               (failure_description f) [] [failure_record f (failure_detail w)]).
    + rewrite failure_description_truthy. reflexivity.
    + now apply url_map_key.
    + exact (get_specific_faq_fails w k f [] Hf).
Qed.

End DispatchFacts.

Lemma faq_not_found_no_envelope k : ~ has_envelope_shape (jsonify (faq_not_found k)).
Proof.
  intros (c & m & H).
  apply (f_equal (fun b => body_field (Return {| payload := b; status := 0 |}) "error")) in H.
  vm_compute in H. discriminate.
Qed.

(** ** The single-entry endpoint *)

(** C1 (as amended): for every loaded document that is a JSON object and
    every key k of it that is not empty and holds no slash, GET /api/faq/k
    answers 200 with the document's value at k, whatever JSON value that is. *)
Theorem get_specific_faq_serves_value (dd : Z -> string) w d k v :
  path_exists w = true ->
  json_load w = Parsed (JObject d) ->
  d !! k = Some v ->
  string_converter k = true ->
  respond dd w (GET_ ("/api/faq/" +:+ k)) =
    Return {| payload := jsonify v; status := 200 |}.
Proof.
  intros Hex Hload Hk Hconv. unfold respond.
  rewrite (wsgi_app_Return dd w _ (ep_get_specific_faq k)
             {| payload := jsonify v; status := 200 |} [] []).
  - reflexivity.
  - now apply url_map_key.
  - exact (get_specific_faq_found w d k v [] Hex Hload Hk).
Qed.

Lemma get_specific_faq_serves_value_witness :
  respond werkzeug_description world_example (GET_ "/api/faq/price_cut") =
    Return {| payload := jsonify (JString "We reduced prices in March."); status := 200 |}.
Proof.
  apply (get_specific_faq_serves_value werkzeug_description world_example
           {[ "price_cut" := JString "We reduced prices in March." ]} "price_cut");
    reflexivity.
Defined.

(** C1, as stated, fails: the document [{"a/b": 1}] has the key a/b, and
    GET /api/faq/a/b matches no route, so it is answered 404 by the generic
    handler and not 200 with the value 1. *)
Lemma slash_key_not_served :
  field (JObject {[ "a/b" := JInt 1 ]}) "a/b" = Some (JInt 1) /\
  respond werkzeug_description world_slash_key (GET_ "/api/faq/a/b") =
    Return {| payload := jsonify (error_envelope "NOT_FOUND" (werkzeug_description 404));
              status := 404 |} /\
  respond werkzeug_description world_slash_key (GET_ "/api/faq/a/b") <>
    Return {| payload := jsonify (JInt 1); status := 200 |}.
Proof.
  split; [reflexivity |].
  assert (respond werkzeug_description world_slash_key (GET_ "/api/faq/a/b") =
          Return {| payload := jsonify (error_envelope "NOT_FOUND" (werkzeug_description 404));
                    status := 404 |}) as E by reflexivity.
  split; [exact E |]. rewrite E. discriminate.
Qed.

(** C2 (as amended): for every loaded document in which Python's [in] does
    not find k (an object without the key k, an array with no element equal
    to the string k, a string of which k is no substring) and every k that
    is not empty and holds no slash, GET /api/faq/k answers 404 with the
    body [{"error": "FAQ item not found", "requested_key": k}], k verbatim,
    and that body has not the shape of the error envelope. *)
Theorem get_specific_faq_missing_key (dd : Z -> string) w doc k :
  path_exists w = true ->
  json_load w = Parsed doc ->
  absent_from k doc ->
  string_converter k = true ->
  respond dd w (GET_ ("/api/faq/" +:+ k)) =
    Return {| payload := jsonify (faq_not_found k); status := 404 |} /\
  field (faq_not_found k) "requested_key" = Some (JString k) /\
  ~ has_envelope_shape (jsonify (faq_not_found k)).
Proof.
  intros Hex Hload Habs Hconv. split; [| split].
  - unfold respond.
    rewrite (wsgi_app_Return dd w _ (ep_get_specific_faq k)
               {| payload := jsonify (faq_not_found k); status := 404 |} [] []).
    + reflexivity.
    + now apply url_map_key.
    + exact (get_specific_faq_absent w doc k [] Hex Hload Habs).
  - vm_compute. reflexivity.
  - apply faq_not_found_no_envelope.
Qed.

Lemma get_specific_faq_missing_key_witness :
  respond werkzeug_description world_example (GET_ "/api/faq/refunds") =
    Return {| payload := jsonify (faq_not_found "refunds"); status := 404 |} /\
  field (faq_not_found "refunds") "requested_key" = Some (JString "refunds") /\
  ~ has_envelope_shape (jsonify (faq_not_found "refunds")).
Proof.
  apply (get_specific_faq_missing_key werkzeug_description world_example
           (JObject {[ "price_cut" := JString "We reduced prices in March." ]}) "refunds");
    reflexivity.
Defined.

(** C2, as stated, fails twice.  The key a/b is not in the example
    document, and GET /api/faq/a/b is answered by the generic 404 handler,
    with the error envelope.  And for the loaded document [5], in which no
    key is present, GET /api/faq/x ends in a TypeError: a 500, or the
    exception itself when debugging. *)
Lemma missing_key_other_answers :
  field (JObject {[ "price_cut" := JString "We reduced prices in March." ]}) "a/b" = None /\
  respond werkzeug_description world_example (GET_ "/api/faq/a/b") =
    Return {| payload := jsonify (error_envelope "NOT_FOUND" (werkzeug_description 404));
              status := 404 |} /\
  respond werkzeug_description world_example (GET_ "/api/faq/a/b") <>
    Return {| payload := jsonify (faq_not_found "a/b"); status := 404 |} /\
  field (JInt 5) "x" = None /\
  respond werkzeug_description (world_number false) (GET_ "/api/faq/x") =
    Return {| payload := jsonify (error_envelope "INTERNAL_SERVER_ERROR"
                                    (werkzeug_description 500));
              status := 500 |} /\
  respond werkzeug_description (world_number true) (GET_ "/api/faq/x") =
    Raise (TypeError "argument of type 'int' is not iterable").
Proof.
  split; [reflexivity |]. split; [reflexivity |]. split.
  - intros H. apply (f_equal (fun r => body_field r "error")) in H.
    vm_compute in H. discriminate.
  - split; [reflexivity |]. split; reflexivity.
Qed.

(** ** The list-all endpoint *)

(** C3: for every data file that exists and parses, GET /api/faq answers
    200 with a body equal to the whole parsed document. *)
Theorem get_all_faq_serves_document (dd : Z -> string) w doc :
  path_exists w = true ->
  json_load w = Parsed doc ->
  respond dd w (GET_ "/api/faq") = Return {| payload := jsonify doc; status := 200 |}.
Proof.
  intros Hex Hload. unfold respond.
  rewrite (wsgi_app_Return dd w "/api/faq" ep_get_all_faq
             {| payload := jsonify doc; status := 200 |} [] []).
  - reflexivity.
  - reflexivity.
  - exact (get_all_faq_ok w doc [] Hex Hload).
Qed.

Lemma get_all_faq_serves_document_witness :
  respond werkzeug_description world_example (GET_ "/api/faq") =
    Return {| payload := jsonify (JObject {[ "price_cut" :=
                           JString "We reduced prices in March." ]});
              status := 200 |}.
Proof.
  apply (get_all_faq_serves_document werkzeug_description world_example); reflexivity.
Defined.

(** ** Loader failures *)

(** C4 (as amended): if the data file is absent, or exists and is not valid
    JSON, then GET /api/faq, and GET /api/faq/k for every k that is not
    empty and holds no slash, answer 500 with an error envelope whose
    error_code is INTERNAL_SERVER_ERROR. *)
Theorem faq_endpoints_500_on_load_failure (dd : Z -> string) w req :
  path_exists w = false \/
    (path_exists w = true /\ exists msg, json_load w = DecodeFails msg) ->
  faq_request req ->
  exists message,
    respond dd w req =
      Return {| payload := jsonify (error_envelope "INTERNAL_SERVER_ERROR" message);
                status := 500 |}.
Proof.
  intros Hfail Hreq.
  assert (exists f, loader_failure w = Some f) as [f Hf].
  { unfold loader_failure. destruct Hfail as [-> | (-> & msg & ->)]; eauto. }
  exists (failure_description f). unfold respond.
  rewrite (faq_request_fails dd w f req Hf Hreq). reflexivity.
Qed.

Lemma faq_endpoints_500_on_load_failure_witness :
  exists message,
    respond werkzeug_description world_malformed (GET_ ("/api/faq/" +:+ "price_cut")) =
      Return {| payload := jsonify (error_envelope "INTERNAL_SERVER_ERROR" message);
                status := 500 |}.
Proof.
  apply (faq_endpoints_500_on_load_failure werkzeug_description world_malformed).
  - right. split; [reflexivity |]. eexists. reflexivity.
  - apply faq_request_one. reflexivity.
Defined.

(** C4, as stated, fails on two of its endpoints when the file is absent:
    GET /health is answered 503 by the view itself, and GET /api/faq/a/b
    matches no route and is answered 404 with error_code NOT_FOUND. *)
Lemma load_failure_not_always_500 :
  path_exists world_missing = false /\
  respond werkzeug_description world_missing (GET_ "/health") =
    Return {| payload := jsonify (JObject {[ "status" := JString "error";
                "message" := JString "API is unhealthy or data source is unavailable." ]});
              status := 503 |} /\
  respond werkzeug_description world_missing (GET_ "/api/faq/a/b") =
    Return {| payload := jsonify (error_envelope "NOT_FOUND" (werkzeug_description 404));
              status := 404 |}.
Proof. repeat split. Qed.

(** On every loader failure the health view answers 503. *)
Lemma health_request_fails (dd : Z -> string) w f :
  loader_failure w = Some f ->
  respond dd w (GET_ "/health") =
    Return {| payload := jsonify (JObject {[ "status" := JString "error";
                "message" := JString "API is unhealthy or data source is unavailable." ]});
              status := 503 |}.
Proof.
  intros Hf. pose proof (health_check_fails w f [] Hf) as Hview.
  destruct (health_check w []) as [r l'] eqn:Hrun. simpl in Hview. subst r.
  unfold respond.
  erewrite (wsgi_app_Return dd w "/health" ep_health_check); [| reflexivity | exact Hrun].
  reflexivity.
Qed.

(** C5: with the data file absent, GET /health runs the 503 branch of
    [health_check]: the [except Exception] there catches the exception that
    the loader's [abort(500, ...)] raised, the 500 handler is never asked,
    and the log holds the loader's record and the view's. *)
Theorem health_check_answers_503_on_missing_file :
  respond werkzeug_description world_missing (GET_ "/health") =
    Return {| payload := jsonify (JObject {[ "status" := JString "error";
                "message" := JString "API is unhealthy or data source is unavailable." ]});
              status := 503 |} /\
  logged werkzeug_description world_missing (GET_ "/health") =
    [ "Critical Error: The data file 'faq.json' was not found.";
      "Health check failed: 500 Internal Server Error: Server configuration error: Data file 'faq.json' is missing." ].
Proof. split; reflexivity. Qed.

(** C6 (as amended): the loader returns exactly when the file exists and
    parses, and then it returns the parsed value as it is, object or not;
    GET /api/faq serves that value. *)
Theorem load_faq_data_returns_parsed_value (dd : Z -> string) w v :
  (fst (load_faq_data w []) = Return v <->
   path_exists w = true /\ json_load w = Parsed v) /\
  (fst (load_faq_data w []) = Return v ->
   respond dd w (GET_ "/api/faq") = Return {| payload := jsonify v; status := 200 |}).
Proof.
  assert (fst (load_faq_data w []) = Return v ->
          path_exists w = true /\ json_load w = Parsed v) as Hinv.
  { intros H. destruct (load_faq_data w []) as [r l'] eqn:Hrun. simpl in H. subst r.
    apply load_faq_data_Return in Hrun. tauto. }
  split; [split |].
  - exact Hinv.
  - intros [Hex Hload]. rewrite (load_faq_data_ok w v [] Hex Hload). reflexivity.
  - intros H. destruct (Hinv H) as [Hex Hload]. unfold respond.
    rewrite (wsgi_app_Return dd w "/api/faq" ep_get_all_faq
               {| payload := jsonify v; status := 200 |} [] []);
      [reflexivity | reflexivity | exact (get_all_faq_ok w v [] Hex Hload)].
Qed.

(** C6, as stated, fails: from the file [["x"]] the loader returns an
    array, and GET /api/faq serves it with status 200. *)
Lemma loader_returns_non_object :
  fst (load_faq_data world_array []) = Return (JArray [JString "x"]) /\
  (forall d, JArray [JString "x"] <> JObject d) /\
  respond werkzeug_description world_array (GET_ "/api/faq") =
    Return {| payload := jsonify (JArray [JString "x"]); status := 200 |}.
Proof. split; [reflexivity |]. split; [discriminate | reflexivity]. Qed.

(** Each kind has its own description and its own log record: they differ
    in their first character already. *)
Lemma failure_description_differs f1 f2 :
  f1 <> f2 -> failure_description f1 <> failure_description f2.
Proof. destruct f1, f2; intros Hne; try congruence; discriminate. Qed.

Lemma failure_record_differs f1 f2 d1 d2 :
  f1 <> f2 -> failure_record f1 d1 <> failure_record f2 d2.
Proof.
  intros Hne H. apply (f_equal (String.get 0)) in H.
  destruct f1, f2; try congruence; vm_compute in H; discriminate.
Qed.

(** C7 (as amended): for any two loader failures of different kinds, GET
    /api/faq and GET /api/faq/k (k not empty, no slash) are both answered
    500 with an error envelope whose error_code is INTERNAL_SERVER_ERROR;
    the two envelopes differ in their message, which is the description of
    the failure kind, and the two logs differ as well. *)
Theorem failure_kinds_share_status_and_code (dd : Z -> string) w1 w2 f1 f2 req :
  loader_failure w1 = Some f1 ->
  loader_failure w2 = Some f2 ->
  f1 <> f2 ->
  faq_request req ->
  respond dd w1 req =
    Return {| payload := jsonify (error_envelope "INTERNAL_SERVER_ERROR"
                                    (failure_description f1));
              status := 500 |} /\
  respond dd w2 req =
    Return {| payload := jsonify (error_envelope "INTERNAL_SERVER_ERROR"
                                    (failure_description f2));
              status := 500 |} /\
  failure_description f1 <> failure_description f2 /\
  logged dd w1 req <> logged dd w2 req.
Proof.
  intros H1 H2 Hne Hreq. unfold respond, logged.
  rewrite (faq_request_fails dd w1 f1 req H1 Hreq).
  rewrite (faq_request_fails dd w2 f2 req H2 Hreq).
  split; [reflexivity |]. split; [reflexivity |]. split.
  - now apply failure_description_differs.
  - simpl. intros [= H]. revert H. now apply failure_record_differs.
Qed.

Lemma failure_kinds_share_status_and_code_witness :
  respond werkzeug_description world_missing (GET_ "/api/faq") =
    Return {| payload := jsonify (error_envelope "INTERNAL_SERVER_ERROR"
                (failure_description MissingDataFile));
              status := 500 |} /\
  respond werkzeug_description world_malformed (GET_ "/api/faq") =
    Return {| payload := jsonify (error_envelope "INTERNAL_SERVER_ERROR"
                (failure_description MalformedData));
              status := 500 |} /\
  failure_description MissingDataFile <> failure_description MalformedData /\
  logged werkzeug_description world_missing (GET_ "/api/faq") <>
    logged werkzeug_description world_malformed (GET_ "/api/faq").
Proof.
  apply (failure_kinds_share_status_and_code werkzeug_description
           world_missing world_malformed MissingDataFile MalformedData).
  - reflexivity.
  - reflexivity.
  - discriminate.
  - apply faq_request_all.
Defined.

(** C7, as stated, fails: a missing file and a malformed file give GET
    /api/faq two different responses, the message of each envelope naming
    its kind of failure. *)
Lemma failure_kinds_distinguished_on_the_wire :
  loader_failure world_missing = Some MissingDataFile /\
  loader_failure world_malformed = Some MalformedData /\
  body_field (respond werkzeug_description world_missing (GET_ "/api/faq")) "message" =
    Some (JString "Server configuration error: Data file 'faq.json' is missing.") /\
  body_field (respond werkzeug_description world_malformed (GET_ "/api/faq")) "message" =
    Some (JString "Error decoding data from 'faq.json'. Please check its format.") /\
  respond werkzeug_description world_missing (GET_ "/api/faq") <>
    respond werkzeug_description world_malformed (GET_ "/api/faq").
Proof.
  split; [reflexivity |]. split; [reflexivity |].
  split; [vm_compute; reflexivity |]. split; [vm_compute; reflexivity |].
  intros H. apply (f_equal (fun r => body_field r "message")) in H.
  vm_compute in H. discriminate.
Qed.

(** ** Requests that reach no view *)

(** C8 (as amended): for every request whose path matches a route and whose
    method is none of GET, HEAD and OPTIONS, the answer is 405 with an
    error envelope whose error_code is METHOD_NOT_ALLOWED. *)
Theorem other_methods_not_allowed (dd : Z -> string) w req ep :
  url_map (path req) = Some ep ->
  method req <> GET -> method req <> HEAD -> method req <> OPTIONS ->
  exists message,
    respond dd w req =
      Return {| payload := jsonify (error_envelope "METHOD_NOT_ALLOWED" message);
                status := 405 |}.
Proof.
  intros Hp Hget Hhead Hopt.
  exists (py_or (dd 405) "The method is not allowed for the requested URL.").
  destruct req as [m p]. simpl in *.
  unfold respond, wsgi_app, full_dispatch_request, dispatch_request, try_except.
  simpl. rewrite Hp.
  destruct m; try congruence; reflexivity.
Qed.

Lemma other_methods_not_allowed_witness :
  exists message,
    respond werkzeug_description world_example {| method := POST; path := "/api/faq" |} =
      Return {| payload := jsonify (error_envelope "METHOD_NOT_ALLOWED" message);
                status := 405 |}.
Proof.
  apply (other_methods_not_allowed werkzeug_description world_example
           {| method := POST; path := "/api/faq" |} ep_get_all_faq);
    [reflexivity | discriminate ..].
Defined.

(** C8, as stated, fails for two methods that are not GET: on /api/faq,
    OPTIONS is answered 200 by Flask itself, and HEAD runs the view of GET
    and is answered 200. *)
Lemma head_and_options_allowed :
  OPTIONS <> GET /\ HEAD <> GET /\
  url_map "/api/faq" = Some ep_get_all_faq /\
  respond werkzeug_description world_example {| method := OPTIONS; path := "/api/faq" |} =
    Return {| payload := EmptyBody; status := 200 |} /\
  respond werkzeug_description world_example {| method := HEAD; path := "/api/faq" |} =
    Return {| payload := jsonify (JObject {[ "price_cut" :=
                           JString "We reduced prices in March." ]});
              status := 200 |}.
Proof. repeat split; discriminate. Qed.

(** C9 (as amended): for every request whose path matches no route (a
    path that starts with a slash, holds no doubled slash, is not under
    Flask's /static/ and matches none of the three rules of app.py), the
    answer is 404; for every method but HEAD its body is the error
    envelope whose error_code is NOT_FOUND, and for HEAD no body is sent. *)
Theorem unmatched_path_not_found (dd : Z -> string) w req :
  plain_path (path req) = true ->
  url_map (path req) = None ->
  exists message,
    received dd w req =
      Return {| payload := match method req with
                           | HEAD => EmptyBody
                           | _ => jsonify (error_envelope "NOT_FOUND" message)
                           end;
                status := 404 |}.
Proof.
  intros _ Hp.
  exists (py_or (dd 404) "The requested resource was not found on this server.").
  unfold received, respond, wsgi_app, full_dispatch_request, dispatch_request, try_except.
  rewrite Hp. cbn [fst raise handle_user_exception default_exception].
  destruct (method req); reflexivity.
Qed.

Lemma unmatched_path_not_found_witness :
  plain_path "/nope" = true /\
  url_map "/nope" = None /\
  exists message,
    received werkzeug_description world_example (GET_ "/nope") =
      Return {| payload := jsonify (error_envelope "NOT_FOUND" message);
                status := 404 |}.
Proof.
  split; [reflexivity |]. split; [reflexivity |].
  apply (unmatched_path_not_found werkzeug_description world_example (GET_ "/nope"));
    reflexivity.
Defined.

(** C9, as stated, fails for HEAD: /nope matches no route, and what the
    client receives for HEAD /nope is the status 404 with no body at all,
    so no error envelope. *)
Lemma head_unmatched_has_no_body :
  url_map "/nope" = None /\
  received werkzeug_description world_example {| method := HEAD; path := "/nope" |} =
    Return {| payload := EmptyBody; status := 404 |} /\
  ~ has_envelope_shape EmptyBody.
Proof.
  split; [reflexivity |]. split; [reflexivity |].
  intros (c & m & H). discriminate.
Qed.

(** ** The health endpoint *)

(** C10: whenever the loader returns, GET /health answers 200 with the
    body [{"status": "ok", "message": m}] for a string m. *)
Theorem health_check_healthy (dd : Z -> string) w doc :
  fst (load_faq_data w []) = Return doc ->
  exists m,
    respond dd w (GET_ "/health") =
      Return {| payload := jsonify (JObject {[ "status" := JString "ok";
                                               "message" := JString m ]});
                status := 200 |}.
Proof.
  intros H. destruct (load_faq_data w []) as [r l'] eqn:Hrun. simpl in H. subst r.
  apply load_faq_data_Return in Hrun. destruct Hrun as (Hex & Hload & _).
  exists "API is healthy and data file is accessible.". unfold respond.
  erewrite (wsgi_app_Return dd w "/health" ep_health_check);
    [| reflexivity | exact (health_check_ok w doc [] Hex Hload)].
  reflexivity.
Qed.

Lemma health_check_healthy_witness :
  exists m,
    respond werkzeug_description world_example (GET_ "/health") =
      Return {| payload := jsonify (JObject {[ "status" := JString "ok";
                                               "message" := JString m ]});
                status := 200 |}.
Proof.
  apply (health_check_healthy werkzeug_description world_example
           (JObject {[ "price_cut" := JString "We reduced prices in March." ]})).
  reflexivity.
Defined.

(** * Further properties of app.py *)

(** ** [load_faq_data] *)

(** X1: whatever leaves the loader as an exception is the exception of
    [abort(500, ...)], with a description that is not empty: neither a
    [JSONDecodeError] nor any other error of the file system escapes. *)
Theorem load_faq_data_raises_only_abort_500 w l e l' :
  load_faq_data w l = (Raise e, l') ->
  exists d, e = HTTPException {| code := 500; description := d |} /\ d <> "".
Proof.
  intros H.
  destruct (load_faq_data_cases w l) as [(v & _ & _ & Hrun) | (f & Hf)].
  - rewrite Hrun in H. discriminate.
  - rewrite (load_faq_data_fails w f l Hf) in H. injection H as <- _.
    exists (failure_description f). split; [reflexivity |].
    destruct f; discriminate.
Qed.

Lemma load_faq_data_raises_only_abort_500_witness :
  load_faq_data world_malformed [] =
    (Raise (HTTPException {| code := 500;
              description := "Error decoding data from 'faq.json'. Please check its format." |}),
     ["JSON Decode Error in 'faq.json': Expecting value: line 1 column 1 (char 0)"]) /\
  exists d,
    HTTPException {| code := 500;
                     description := "Error decoding data from 'faq.json'. Please check its format." |} =
      HTTPException {| code := 500; description := d |} /\ d <> "".
Proof.
  split; [reflexivity |].
  apply (load_faq_data_raises_only_abort_500 world_malformed []
           (HTTPException {| code := 500;
              description := "Error decoding data from 'faq.json'. Please check its format." |})
           ["JSON Decode Error in 'faq.json': Expecting value: line 1 column 1 (char 0)"]).
  reflexivity.
Defined.

(** X2: the loader only ever appends to the log.  When it returns it has
    written nothing; when it raises it has written exactly one record,
    after the records that were there. *)
Theorem load_faq_data_log_discipline w l :
  (exists v, load_faq_data w l = (Return v, l)) \/
  (exists e record, load_faq_data w l = (Raise e, (l ++ [record])%list)).
Proof.
  destruct (load_faq_data_cases w l) as [(v & _ & _ & Hrun) | (f & Hf)].
  - left. eauto.
  - right. rewrite (load_faq_data_fails w f l Hf). eauto.
Qed.

(** When the path does not exist the file is never opened: the outcome is
    the missing-file failure whatever opening and parsing would give. *)
Lemma load_faq_data_missing_file_first w l :
  path_exists w = false ->
  load_faq_data w l =
    (Raise (HTTPException {| code := 500;
              description := "Server configuration error: Data file 'faq.json' is missing." |}),
     (l ++ ["Critical Error: The data file 'faq.json' was not found."])%list).
Proof.
  intros Hex. unfold load_faq_data, bind, try_except. rewrite Hex. reflexivity.
Qed.

(** No kind of failure applies exactly when the file exists and parses. *)
Lemma loader_failure_None w :
  loader_failure w = None <->
  path_exists w = true /\ exists doc, json_load w = Parsed doc.
Proof.
  unfold loader_failure. split.
  - destruct (path_exists w); [| discriminate].
    destruct (json_load w); try discriminate. eauto.
  - intros (-> & doc & ->). reflexivity.
Qed.

(** ** [health_check] *)

(** X3: the health view never raises.  It answers 200, having logged
    nothing, exactly when the loader returns, and 503 in every other case. *)
Theorem health_check_never_raises w l :
  exists r l',
    health_check w l = (Return r, l') /\
    ((status r = 200 /\ loader_failure w = None /\ l' = l) \/
     (status r = 503 /\ loader_failure w <> None)).
Proof.
  destruct (loader_failure w) as [f |] eqn:Hf.
  - unfold health_check, try_except, bind.
    rewrite (load_faq_data_fails w f l Hf). cbv beta iota.
    eexists _, _. split; [reflexivity |]. right. split; [reflexivity | discriminate].
  - apply loader_failure_None in Hf. destruct Hf as (Hex & doc & Hload).
    rewrite (health_check_ok w doc l Hex Hload).
    eexists _, _. split; [reflexivity |]. left. auto.
Qed.

(** X4: when the loader fails, the health view leaves two records in the
    log, after those already there: the loader's own, then its
    [Health check failed: ...] record, which quotes the caught exception as
    [500 Internal Server Error: <description>]. *)
Theorem health_check_failure_log w f l :
  loader_failure w = Some f ->
  snd (health_check w l) =
    (l ++ [ failure_record f (failure_detail w);
            "Health check failed: 500 Internal Server Error: " +:+ failure_description f ])%list.
Proof.
  intros Hf. unfold health_check, try_except, bind.
  rewrite (load_faq_data_fails w f l Hf). cbv beta iota.
  unfold logger_error, ret. cbn [snd].
  rewrite <- app_assoc. reflexivity.
Qed.

Lemma health_check_failure_log_witness :
  snd (health_check world_malformed []) =
    [ "JSON Decode Error in 'faq.json': Expecting value: line 1 column 1 (char 0)";
      "Health check failed: 500 Internal Server Error: Error decoding data from 'faq.json'. Please check its format." ].
Proof.
  apply (health_check_failure_log world_malformed MalformedData []). reflexivity.
Defined.

(** ** [get_specific_faq] *)

(** For a document that is no object, whether Python's [in] finds the key
    is decided, and finding it leads to a TypeError: at the [in] itself for
    a number, a boolean or null, at the subscript for an array or a string. *)
Lemma absent_from_dec k doc : absent_from k doc \/ ~ absent_from k doc.
Proof.
  destruct doc as [| b | n | x | s | items | d]; cbn [absent_from]; try tauto.
  - destruct (is_substring k s); [right; discriminate | left; reflexivity].
  - destruct (existsb (equals_str k) items); [right; discriminate | left; reflexivity].
  - destruct (d !! k); [right; discriminate | left; reflexivity].
Qed.

Lemma get_specific_faq_type_error w doc k l :
  path_exists w = true ->
  json_load w = Parsed doc ->
  (forall d, doc <> JObject d) ->
  ~ absent_from k doc ->
  exists msg, get_specific_faq w k l = (Raise (TypeError msg), l).
Proof.
  intros Hex Hload Hobj Hin. unfold get_specific_faq, bind.
  rewrite (load_faq_data_ok w doc l Hex Hload).
  destruct doc as [| b | n | x | s | items | d]; cbn [contains absent_from] in *;
    try (eexists; reflexivity).
  - unfold ret. destruct (is_substring k s); [eexists; reflexivity | now destruct Hin].
  - unfold ret. destruct (existsb (equals_str k) items);
      [eexists; reflexivity | now destruct Hin].
  - destruct (Hobj d eq_refl).
Qed.

(** X5: for a loaded document that is not an object, the single-entry view
    never answers 200.  Where Python's [in] does not find the key it
    answers the 404 of a missing key; in every other case (the key is an
    element of the array, a substring of the string, or the document is a
    number, a boolean or null) it raises a TypeError. *)
Theorem get_specific_faq_non_object w doc k l :
  path_exists w = true ->
  json_load w = Parsed doc ->
  (forall d, doc <> JObject d) ->
  (absent_from k doc /\
   get_specific_faq w k l =
     (Return {| payload := jsonify (faq_not_found k); status := 404 |}, l)) \/
  (~ absent_from k doc /\
   exists msg, get_specific_faq w k l = (Raise (TypeError msg), l)).
Proof.
  intros Hex Hload Hobj.
  destruct (absent_from_dec k doc) as [Habs | Hin].
  - left. split; [exact Habs |].
    exact (get_specific_faq_absent w doc k l Hex Hload Habs).
  - right. split; [exact Hin |].
    exact (get_specific_faq_type_error w doc k l Hex Hload Hobj Hin).
Qed.

Lemma get_specific_faq_non_object_witness :
  (absent_from "x" (JArray [JString "x"]) /\
   get_specific_faq world_array "x" [] =
     (Return {| payload := jsonify (faq_not_found "x"); status := 404 |}, [])) \/
  (~ absent_from "x" (JArray [JString "x"]) /\
   exists msg, get_specific_faq world_array "x" [] = (Raise (TypeError msg), [])).
Proof.
  apply (get_specific_faq_non_object world_array (JArray [JString "x"]) "x" []);
    [reflexivity | reflexivity | discriminate].
Defined.

(** X6: the lookup [faq_data[faq_key]] is guarded by [faq_key in faq_data]:
    the view never raises a KeyError.  What it raises is the loader's
    [abort(500, ...)], or a TypeError, and a TypeError only for a loaded
    document that is not an object. *)
Theorem get_specific_faq_raises w k l e l' :
  get_specific_faq w k l = (Raise e, l') ->
  (exists d, e = HTTPException {| code := 500; description := d |}) \/
  (exists msg doc, e = TypeError msg /\ json_load w = Parsed doc /\
                   forall d, doc <> JObject d).
Proof.
  intros H.
  destruct (load_faq_data_cases w l) as [(doc & Hex & Hload & Hrun) | (f & Hf)].
  - assert ((forall d, doc <> JObject d) ->
            exists msg doc', e = TypeError msg /\ json_load w = Parsed doc' /\
                             forall d, doc' <> JObject d) as Hno.
    { intros Hobj. destruct (absent_from_dec k doc) as [Habs | Hin].
      - rewrite (get_specific_faq_absent w doc k l Hex Hload Habs) in H. discriminate.
      - destruct (get_specific_faq_type_error w doc k l Hex Hload Hobj Hin)
          as [msg Hraise].
        rewrite Hraise in H. injection H as <- _. exists msg, doc. auto. }
    destruct doc as [| b | n | x | s | items | d];
      try (right; apply Hno; discriminate).
    destruct (d !! k) as [v |] eqn:Hk.
    + rewrite (get_specific_faq_found w d k v l Hex Hload Hk) in H. discriminate.
    + rewrite (get_specific_faq_absent w (JObject d) k l Hex Hload Hk) in H. discriminate.
  - rewrite (get_specific_faq_fails w k f l Hf) in H. injection H as <- _. left. eauto.
Qed.

Lemma get_specific_faq_raises_witness :
  get_specific_faq (world_number true) "x" [] =
    (Raise (TypeError "argument of type 'int' is not iterable"), []) /\
  ((exists d, TypeError "argument of type 'int' is not iterable" =
              HTTPException {| code := 500; description := d |}) \/
   (exists msg doc, TypeError "argument of type 'int' is not iterable" = TypeError msg /\
                    json_load (world_number true) = Parsed doc /\
                    forall d, doc <> JObject d)).
Proof.
  split; [reflexivity |].
  apply (get_specific_faq_raises (world_number true) "x" []
           (TypeError "argument of type 'int' is not iterable") []).
  reflexivity.
Defined.

(** ** The error handlers *)

Lemma py_or_nonempty a b : b <> "" -> py_or a b <> "".
Proof. destruct a; [auto | discriminate]. Qed.

Lemma py_or_left a b : a <> "" -> py_or a b = a.
Proof. destruct a; [congruence | reflexivity]. Qed.

(** X7: each handler answers with the status code it is registered for,
    logs nothing, and sends an error envelope whose message is never
    empty: the description of the error when it has one, the handler's own
    text otherwise. *)
Theorem error_handlers_answer_their_code c handler error l :
  error_handler_spec c = Some handler ->
  exists code_name message,
    handler error l =
      (Return {| payload := jsonify (error_envelope code_name message); status := c |}, l) /\
    message <> "" /\
    (description error <> "" -> message = description error).
Proof.
  unfold error_handler_spec. intros H.
  destruct (Z.eqb_spec c 404) as [-> |]; [injection H as <- |].
  { eexists _, _. split; [reflexivity |].
    split; [apply py_or_nonempty; discriminate | apply py_or_left]. }
  destruct (Z.eqb_spec c 500) as [-> |]; [injection H as <- |].
  { eexists _, _. split; [reflexivity |].
    split; [apply py_or_nonempty; discriminate | apply py_or_left]. }
  destruct (Z.eqb_spec c 405) as [-> |]; [injection H as <- | discriminate].
  eexists _, _. split; [reflexivity |].
  split; [apply py_or_nonempty; discriminate | apply py_or_left].
Qed.

Lemma error_handlers_answer_their_code_witness :
  exists code_name message,
    not_found_error {| code := 404; description := "" |} [] =
      (Return {| payload := jsonify (error_envelope code_name message); status := 404 |}, []) /\
    message <> "" /\
    (description {| code := 404; description := "" |} <> "" ->
     message = description {| code := 404; description := "" |}).
Proof.
  apply (error_handlers_answer_their_code 404 not_found_error
           {| code := 404; description := "" |} []).
  reflexivity.
Defined.

(** ** The URL map *)

Lemma strip_prefix_spec p s r : strip_prefix p s = Some r <-> s = p +:+ r.
Proof.
  revert s. induction p as [| a p IH]; intros s; simpl.
  - split; [intros [= ->] | intros ->]; reflexivity.
  - destruct s as [| b s]; [split; discriminate |].
    destruct (Ascii.eqb_spec a b) as [-> | Hne].
    + rewrite IH. split; [intros -> | intros [= ->]]; reflexivity.
    + split; [discriminate | intros [= ? ?]; congruence].
Qed.

Lemma url_map_Some_cases p ep :
  url_map p = Some ep ->
  (p = "/health" /\ ep = ep_health_check) \/
  (p = "/api/faq" /\ ep = ep_get_all_faq) \/
  (exists k, p = "/api/faq/" +:+ k /\ string_converter k = true /\
             ep = ep_get_specific_faq k).
Proof.
  unfold url_map.
  destruct (String.eqb_spec p "/health") as [-> | _]; [intros [= <-]; auto |].
  destruct (String.eqb_spec p "/api/faq") as [-> | _]; [intros [= <-]; auto |].
  destruct (strip_prefix "/api/faq/" p) as [k |] eqn:Hstrip; [| discriminate].
  apply strip_prefix_spec in Hstrip.
  destruct (string_converter k) eqn:Hk; [| discriminate].
  intros [= <-]. right. right. exists k. auto.
Qed.

(** ** Whole requests *)

(** A request that reaches no view: no route, or a method other than GET
    and HEAD.  It is answered without the loader being called. *)
Lemma wsgi_app_no_view (dd : Z -> string) w req l :
  url_map (path req) = None \/ (method req <> GET /\ method req <> HEAD) ->
  exists r,
    wsgi_app dd w req l = (Return r, l) /\
    (r = {| payload := EmptyBody; status := 200 |} \/
     (url_map (path req) = None /\
      exists m, r = {| payload := jsonify (error_envelope "NOT_FOUND" m); status := 404 |}) \/
     (exists m, r = {| payload := jsonify (error_envelope "METHOD_NOT_ALLOWED" m);
                       status := 405 |})).
Proof.
  destruct req as [m p]. cbn [path method].
  unfold wsgi_app, full_dispatch_request, dispatch_request, try_except. cbn [path method].
  destruct (url_map p) as [ep |].
  - intros [Hno | [Hget Hhead]]; [discriminate |].
    destruct m; try congruence; eexists; (split; [reflexivity |]); eauto.
  - intros _. eexists. split; [reflexivity |]. right. left. eauto.
Qed.

(** GET and HEAD on a matched path run the view under Flask's two layers
    of exception handling. *)
Lemma wsgi_app_view (dd : Z -> string) w req ep l :
  url_map (path req) = Some ep ->
  method req = GET \/ method req = HEAD ->
  wsgi_app dd w req l =
    try_except (try_except (view_function w ep) handle_user_exception)
               (handle_exception dd w req) l.
Proof.
  destruct req as [m p]. cbn [path method]. intros Hp Hm.
  unfold wsgi_app, full_dispatch_request, dispatch_request. cbn [path method].
  rewrite Hp. destruct Hm as [-> | ->]; reflexivity.
Qed.

(** The four ways a view ends, from an empty log. *)
Lemma view_function_outcomes w ep :
  (loader_failure w = None /\
   exists r, view_function w ep [] = (Return r, []) /\
             (status r = 200 \/
              exists k, ep = ep_get_specific_faq k /\
                        r = {| payload := jsonify (faq_not_found k); status := 404 |})) \/
  (loader_failure w = None /\
   exists msg doc k, view_function w ep [] = (Raise (TypeError msg), []) /\
                     json_load w = Parsed doc /\ (forall d, doc <> JObject d) /\
                     ep = ep_get_specific_faq k) \/
  (loader_failure w <> None /\ ep = ep_health_check /\
   exists l', view_function w ep [] =
                (Return {| payload := jsonify (JObject {[ "status" := JString "error";
                             "message" := JString "API is unhealthy or data source is unavailable." ]});
                           status := 503 |}, l') /\ l' <> []) \/
  (loader_failure w <> None /\
   exists d l', view_function w ep [] =
                  (Raise (HTTPException {| code := 500; description := d |}), l') /\
                d <> "" /\ l' <> []).
Proof.
  destruct (loader_failure w) as [f |] eqn:Hf.
  - right. right. destruct ep as [| | k]; cbn [view_function].
    + left. split; [discriminate |]. split; [reflexivity |].
      unfold health_check, try_except, bind.
      rewrite (load_faq_data_fails w f [] Hf). cbv beta iota.
      eexists. split; [reflexivity | discriminate].
    + right. split; [discriminate |]. rewrite (get_all_faq_fails w f [] Hf).
      eexists _, _. split; [reflexivity |]. split; [destruct f | ]; discriminate.
    + right. split; [discriminate |]. rewrite (get_specific_faq_fails w k f [] Hf).
      eexists _, _. split; [reflexivity |]. split; [destruct f | ]; discriminate.
  - pose proof Hf as Hnone. apply loader_failure_None in Hf.
    destruct Hf as (Hex & doc & Hload).
    destruct ep as [| | k]; cbn [view_function].
    + left. split; [reflexivity |]. rewrite (health_check_ok w doc [] Hex Hload).
      eexists. split; [reflexivity |]. cbn [status]. auto.
    + left. split; [reflexivity |]. rewrite (get_all_faq_ok w doc [] Hex Hload).
      eexists. split; [reflexivity |]. cbn [status]. auto.
    + assert ((forall d, doc <> JObject d) \/ exists d, doc = JObject d) as [Hobj | [d ->]].
      { destruct doc; try (left; discriminate). right. eauto. }
      * destruct (absent_from_dec k doc) as [Habs | Hin].
        -- left. split; [reflexivity |].
           rewrite (get_specific_faq_absent w doc k [] Hex Hload Habs).
           eexists. split; [reflexivity |]. eauto.
        -- right. left. split; [reflexivity |].
           destruct (get_specific_faq_type_error w doc k [] Hex Hload Hobj Hin)
             as [msg Hraise].
           rewrite Hraise. exists msg, doc, k. auto.
      * left. split; [reflexivity |]. destruct (d !! k) as [v |] eqn:Hk.
        -- rewrite (get_specific_faq_found w d k v [] Hex Hload Hk).
           eexists. split; [reflexivity |]. cbn [status]. auto.
        -- rewrite (get_specific_faq_absent w (JObject d) k [] Hex Hload Hk).
           eexists. split; [reflexivity |]. eauto.
Qed.

(** Every way a request ends, from an empty log. *)
Lemma request_outcomes (dd : Z -> string) w req :
  ((url_map (path req) = None \/ (method req <> GET /\ method req <> HEAD)) /\
   exists r, wsgi_app dd w req [] = (Return r, []) /\
     (r = {| payload := EmptyBody; status := 200 |} \/
      (url_map (path req) = None /\
       exists m, r = {| payload := jsonify (error_envelope "NOT_FOUND" m);
                        status := 404 |}) \/
      (exists m, r = {| payload := jsonify (error_envelope "METHOD_NOT_ALLOWED" m);
                        status := 405 |}))) \/
  (exists ep,
     url_map (path req) = Some ep /\ (method req = GET \/ method req = HEAD) /\
     ((loader_failure w = None /\
       exists r, view_function w ep [] = (Return r, []) /\
                 wsgi_app dd w req [] = (Return r, []) /\
         (status r = 200 \/
          (exists k, ep = ep_get_specific_faq k /\
                     r = {| payload := jsonify (faq_not_found k); status := 404 |}))) \/
      (loader_failure w = None /\
       exists msg doc k,
         view_function w ep [] = (Raise (TypeError msg), []) /\
         json_load w = Parsed doc /\ (forall d, doc <> JObject d) /\
         ep = ep_get_specific_faq k /\
         ((debug w = true /\ wsgi_app dd w req [] = (Raise (TypeError msg), [])) \/
          (debug w = false /\
           exists m record,
             wsgi_app dd w req [] =
               (Return {| payload := jsonify (error_envelope "INTERNAL_SERVER_ERROR" m);
                          status := 500 |}, [record])))) \/
      (loader_failure w <> None /\
       exists r l', wsgi_app dd w req [] = (Return r, l') /\
         ((ep = ep_health_check /\
           r = {| payload := jsonify (JObject {[ "status" := JString "error";
                    "message" := JString "API is unhealthy or data source is unavailable." ]});
                  status := 503 |}) \/
          (exists m, r = {| payload := jsonify (error_envelope "INTERNAL_SERVER_ERROR" m);
                            status := 500 |})) /\
         l' <> []))).
Proof.
  assert ((exists ep, url_map (path req) = Some ep /\
                      (method req = GET \/ method req = HEAD)) \/
          (url_map (path req) = None \/ (method req <> GET /\ method req <> HEAD)))
    as [(ep & Hp & Hm) | Hno].
  { destruct (url_map (path req)) as [ep |]; [| auto].
    destruct (method req); eauto; right; right; split; discriminate. }
  - right. exists ep. split; [exact Hp |]. split; [exact Hm |].
    rewrite (wsgi_app_view dd w req ep [] Hp Hm). unfold try_except.
    destruct (view_function_outcomes w ep)
      as [(Hf & r & Hview & Hst) | [(Hf & msg & doc & k & Hview & Hload & Hobj & Hep)
         | [(Hf & Hep & l' & Hview & Hl) | (Hf & d & l' & Hview & Hd & Hl)]]];
      rewrite Hview.
    + left. split; [exact Hf |]. exists r. split; [reflexivity |].
      split; [reflexivity | exact Hst].
    + right. left. split; [exact Hf |]. exists msg, doc, k.
      split; [reflexivity |]. split; [exact Hload |]. split; [exact Hobj |].
      split; [exact Hep |].
      cbn [handle_user_exception raise]. unfold handle_exception.
      destruct (debug w) eqn:Hdbg.
      * left. split; reflexivity.
      * right. split; [reflexivity |]. eexists _, _. reflexivity.
    + right. right. split; [exact Hf |]. eexists _, l'. split; [reflexivity |]. auto.
    + right. right. split; [exact Hf |]. eexists _, l'.
      split; [reflexivity |]. split; [| exact Hl]. eauto.
  - left. split; [exact Hno |]. exact (wsgi_app_no_view dd w req [] Hno).
Qed.



(** X11: an exception leaves the application only when all of this holds:
    debugging is on, the data file exists and holds JSON that is not an
    object, and the request is a GET or HEAD of a single entry.  The
    exception is then a TypeError.  Without debugging every request is
    answered. *)
Theorem respond_raises_only_TypeError (dd : Z -> string) w req e :
  respond dd w req = Raise e ->
  debug w = true /\
  (method req = GET \/ method req = HEAD) /\
  exists msg doc k,
    e = TypeError msg /\ path req = "/api/faq/" +:+ k /\
    path_exists w = true /\ json_load w = Parsed doc /\
    forall d, doc <> JObject d.
Proof.
  unfold respond. intros H.
  destruct (request_outcomes dd w req)
    as [(_ & r' & Hrun & _)
       | (ep & Hp & Hm & [(_ & r' & _ & Hrun & _)
                         | [(Hf & msg & doc & k & _ & Hload & Hobj & -> &
                             [(Hdbg & Hrun) | (_ & m & record & Hrun)])
                           | (_ & r' & l' & Hrun & _)]])];
    rewrite Hrun in H; cbn [fst] in H; try discriminate.
  injection H as <-. split; [exact Hdbg |]. split; [exact Hm |].
  exists msg, doc, k. split; [reflexivity |]. split.
  - destruct (url_map_Some_cases _ _ Hp)
      as [[_ Hep] | [[_ Hep] | (k' & Hpath & _ & Hep)]]; try discriminate.
    injection Hep as ->. exact Hpath.
  - apply loader_failure_None in Hf. destruct Hf as [Hex _]. auto.
Qed.

Lemma respond_raises_only_TypeError_witness :
  respond werkzeug_description (world_number true) (GET_ "/api/faq/x") =
    Raise (TypeError "argument of type 'int' is not iterable") /\
  (debug (world_number true) = true /\
   (method (GET_ "/api/faq/x") = GET \/ method (GET_ "/api/faq/x") = HEAD) /\
   exists msg doc k,
     TypeError "argument of type 'int' is not iterable" = TypeError msg /\
     path (GET_ "/api/faq/x") = "/api/faq/" +:+ k /\
     path_exists (world_number true) = true /\
     json_load (world_number true) = Parsed doc /\
     forall d, doc <> JObject d).
Proof.
  split; [reflexivity |].
  apply (respond_raises_only_TypeError werkzeug_description (world_number true)
           (GET_ "/api/faq/x") (TypeError "argument of type 'int' is not iterable")).
  reflexivity.
Defined.

(** X12: on the paths where the three rules of app.py are all there is to
    match, [app.logger] is written during a request exactly when a view
    runs (a GET or HEAD on a matched path) and either the loader fails or,
    with debugging off, the view ends in a TypeError, which Flask logs
    before answering 500.  Every other request leaves the log empty. *)
Theorem logged_iff_failure_in_view (dd : Z -> string) w req :
  plain_path (path req) = true ->
  (logged dd w req <> [] <->
   (method req = GET \/ method req = HEAD) /\
   exists ep,
     url_map (path req) = Some ep /\
     (loader_failure w <> None \/
      (debug w = false /\
       exists msg, fst (view_function w ep []) = Raise (TypeError msg)))).
Proof.
  intros _. unfold logged.
  destruct (request_outcomes dd w req)
    as [(Hno & r' & Hrun & _)
       | (ep & Hp & Hm & [(Hf & r' & Hview & Hrun & _)
                         | [(Hf & msg & doc & k & Hview & _ & _ & _ &
                             [(Hdbg & Hrun) | (Hdbg & m & record & Hrun)])
                           | (Hf & r' & l' & Hrun & _ & Hl)]])];
    rewrite Hrun; cbn [snd].
  - split; [congruence |]. intros (Hm & ep & Hp & _).
    destruct Hno as [Hnone | [Hget Hhead]]; [congruence | tauto].
  - split; [congruence |]. intros (_ & ep' & Hp' & [Hf' | (_ & msg & Hraise)]).
    + contradiction.
    + assert (ep' = ep) as -> by congruence.
      rewrite Hview in Hraise. discriminate.
  - split; [congruence |]. intros (_ & ep' & _ & [Hf' | (Hdbg' & _)]).
    + contradiction.
    + congruence.
  - split; [| discriminate]. intros _. split; [exact Hm |].
    exists ep. split; [exact Hp |]. right. split; [exact Hdbg |].
    exists msg. rewrite Hview. reflexivity.
  - split; [| intros _; exact Hl]. intros _. split; [exact Hm |].
    exists ep. split; [exact Hp |]. left. exact Hf.
Qed.

Lemma logged_iff_failure_in_view_witness :
  plain_path "/api/faq/x" = true /\
  logged werkzeug_description (world_number false) (GET_ "/api/faq/x") =
    ["Exception on /api/faq/x [GET]"] /\
  (logged werkzeug_description (world_number false) (GET_ "/api/faq/x") <> [] <->
   (method (GET_ "/api/faq/x") = GET \/ method (GET_ "/api/faq/x") = HEAD) /\
   exists ep,
     url_map (path (GET_ "/api/faq/x")) = Some ep /\
     (loader_failure (world_number false) <> None \/
      (debug (world_number false) = false /\
       exists msg, fst (view_function (world_number false) ep []) = Raise (TypeError msg)))).
Proof.
  split; [reflexivity |]. split; [reflexivity |].
  apply (logged_iff_failure_in_view werkzeug_description (world_number false)
           (GET_ "/api/faq/x")).
  reflexivity.
Defined.

Lemma url_map_health_path p : url_map p = Some ep_health_check -> p = "/health".
Proof.
  intros H. destruct (url_map_Some_cases p _ H)
    as [[Hp _] | [[_ Hep] | (k & _ & _ & Hep)]]; [exact Hp | discriminate ..].
Qed.

Lemma url_map_key_path p k :
  url_map p = Some (ep_get_specific_faq k) -> p = "/api/faq/" +:+ k.
Proof.
  intros H. destruct (url_map_Some_cases p _ H)
    as [[_ Hep] | [[_ Hep] | (k' & Hp & _ & Hep)]]; try discriminate.
  injection Hep as ->. exact Hp.
Qed.

(** X13: for a request other than HEAD, on a path where the three rules of
    app.py are all there is to match, the status of an error answer tells
    its body.  A 405 and a 500 carry the error envelope with the error_code
    of their status.  A 404 is either the generic envelope, and then the
    path matched none of the three rules, or the single-entry view's own
    body naming the requested key, and then the path is that of the key.
    A 503 comes from /health only, and only when the loader failed. *)
Theorem error_status_determines_body (dd : Z -> string) w req r :
  plain_path (path req) = true ->
  method req <> HEAD ->
  respond dd w req = Return r ->
  (status r = 405 ->
   exists m, payload r = jsonify (error_envelope "METHOD_NOT_ALLOWED" m)) /\
  (status r = 500 ->
   exists m, payload r = jsonify (error_envelope "INTERNAL_SERVER_ERROR" m)) /\
  (status r = 404 ->
   (url_map (path req) = None /\
    exists m, payload r = jsonify (error_envelope "NOT_FOUND" m)) \/
   (exists k, path req = "/api/faq/" +:+ k /\
              payload r = jsonify (faq_not_found k))) /\
  (status r = 503 -> path req = "/health" /\ loader_failure w <> None).
Proof.
  unfold respond. intros _ _ H.
  destruct (request_outcomes dd w req)
    as [(_ & r' & Hrun & Hst)
       | (ep & Hp & _ & [(_ & r' & _ & Hrun & Hst)
                        | [(_ & msg & doc & k & _ & _ & _ & _ &
                            [(_ & Hrun) | (_ & m & record & Hrun)])
                          | (Hf & r' & l' & Hrun & Hst & _)]])];
    rewrite Hrun in H; cbn [fst] in H; try discriminate;
    injection H as <-.
  - destruct Hst as [-> | [(Hnone & m & ->) | (m & ->)]]; cbn [status payload];
      (split; [| split; [| split]]); intros Hs; try discriminate; eauto.
  - destruct Hst as [Hok | (k & -> & ->)]; cbn [status payload].
    + rewrite Hok. (split; [| split; [| split]]); intros Hs; discriminate.
    + (split; [| split; [| split]]); intros Hs; try discriminate.
      right. exists k. split; [now apply url_map_key_path | reflexivity].
  - cbn [status payload].
    (split; [| split; [| split]]); intros Hs; try discriminate; eauto.
  - destruct Hst as [(-> & ->) | (m & ->)]; cbn [status payload].
    + (split; [| split; [| split]]); intros Hs; try discriminate.
      split; [now apply url_map_health_path | exact Hf].
    + (split; [| split; [| split]]); intros Hs; try discriminate; eauto.
Qed.

Lemma error_status_determines_body_witness :
  plain_path "/nope" = true /\
  method (GET_ "/nope") <> HEAD /\
  respond werkzeug_description world_example (GET_ "/nope") =
    Return {| payload := jsonify (error_envelope "NOT_FOUND" (werkzeug_description 404));
              status := 404 |} /\
  ((url_map "/nope" = None /\
    exists m, jsonify (error_envelope "NOT_FOUND" (werkzeug_description 404)) =
              jsonify (error_envelope "NOT_FOUND" m)) \/
   (exists k, "/nope" = "/api/faq/" +:+ k /\
              jsonify (error_envelope "NOT_FOUND" (werkzeug_description 404)) =
              jsonify (faq_not_found k))).
Proof.
  split; [reflexivity |]. split; [discriminate |]. split; [reflexivity |].
  destruct (error_status_determines_body werkzeug_description world_example
              (GET_ "/nope")
              {| payload := jsonify (error_envelope "NOT_FOUND" (werkzeug_description 404));
                 status := 404 |} eq_refl ltac:(discriminate) eq_refl)
    as (_ & _ & H404 & _).
  exact (H404 eq_refl).
Defined.

(** X14: without debugging, a TypeError of the single-entry view (a loaded
    document that is not an object, in which Python's [in] does not come
    out false) is answered 500 with the error envelope; its message is the
    description of werkzeug's InternalServerError, or the handler's own
    text, and never the text of the TypeError. *)
Theorem type_error_answered_500 (dd : Z -> string) w doc k :
  debug w = false ->
  path_exists w = true ->
  json_load w = Parsed doc ->
  (forall d, doc <> JObject d) ->
  ~ absent_from k doc ->
  string_converter k = true ->
  respond dd w (GET_ ("/api/faq/" +:+ k)) =
    Return {| payload := jsonify (error_envelope "INTERNAL_SERVER_ERROR"
                (py_or (dd 500)
                   "An unexpected error occurred on the server. Please try again later."));
              status := 500 |}.
Proof.
  intros Hdbg Hex Hload Hobj Hin Hk.
  destruct (get_specific_faq_type_error w doc k [] Hex Hload Hobj Hin) as [msg Hraise].
  unfold respond.
  rewrite (wsgi_app_view dd w (GET_ ("/api/faq/" +:+ k)) (ep_get_specific_faq k) []
             (url_map_key k Hk) (or_introl eq_refl)).
  unfold try_except. cbn [view_function]. rewrite Hraise.
  cbn [handle_user_exception raise]. unfold handle_exception. rewrite Hdbg.
  reflexivity.
Qed.

Lemma type_error_answered_500_witness :
  respond werkzeug_description
    {| path_exists := true; json_load := Parsed (JArray [JString "x"]); debug := false |}
    (GET_ ("/api/faq/" +:+ "x")) =
    Return {| payload := jsonify (error_envelope "INTERNAL_SERVER_ERROR"
                (py_or (werkzeug_description 500)
                   "An unexpected error occurred on the server. Please try again later."));
              status := 500 |}.
Proof.
  apply (type_error_answered_500 werkzeug_description
           {| path_exists := true; json_load := Parsed (JArray [JString "x"]);
              debug := false |}
           (JArray [JString "x"]) "x");
    try reflexivity; discriminate.
Defined.
